(** * The Node binding of tree-sitter-thorn

    A shallow embedding of [bindings/node/binding.cc]: the module
    initializer [Init], which publishes the grammar's name and an opaque
    handle to its language descriptor on the module's exports object.

    The binding is five statements over the node-addon-api object model, so
    the embedding is a small state-and-exception monad over a store of
    JavaScript objects, with one primitive per API call the source makes.
    An assignment [exports[k] = v] is JavaScript's [[Set]]: it may store,
    be refused without notice, or run a setter or a proxy trap. *)

From Stdlib Require Import ZArith.
From stdpp Require Import base option list strings gmap.

Open Scope Z_scope.

(** ** Data *)

(** [void *]: an address; the null pointer is address 0. *)
Definition Ptr : Type := Z.
Definition NULL : Ptr := 0.

(** A [Napi::Object] is a handle: two handles denote the same JavaScript
    object exactly when they are equal. *)
Definition Object : Type := positive.

(** A function of the JavaScript program that loaded the module (a setter,
    the trap of a proxy), by name. *)
Definition Code : Type := positive.

(** The JavaScript values the binding creates or may find on an object. An
    External is represented by the pointer it wraps: the identity of the
    JavaScript value is not represented, and nothing below concludes that
    two Externals are one and the same value. *)
Inductive Value : Type :=
| VUndefined
| VString (s : string)
| VExternal (data : Ptr)
| VObject (o : Object).

(** An own property: a data property with its [writable] attribute, or an
    accessor property with its setter, if it has one. *)
Inductive Property : Type :=
| Data (value : Value) (writable : bool)
| Accessor (setter : option Code).

(** An object: an ordinary one with its prototype, its [extensible] flag and
    its own properties by name (the order of the keys is not represented), or
    a proxy with the function that handles assignments to it. *)
Inductive JSObject : Type :=
| Ordinary (prototype : option Object) (extensible : bool)
           (properties : gmap string Property)
| Proxy (handler : Code).

(** Modelled from the spec: the grammar table behind a [TSLanguage *]. The
    binding only declares the type ([typedef struct TSLanguage TSLanguage;]),
    so of the table only the format/version tag the spec speaks of is kept. *)
Record TSLanguage : Type := { version : N }.

(** node-addon-api turns every N-API status other than [napi_ok] into a
    thrown [Napi::Error]. *)
Inductive napi_status : Type :=
| napi_object_expected
| napi_pending_exception.

(** What a call into the binding can raise. [TableVersionMismatch] is the
    load error the spec names. *)
Inductive Error : Type :=
| NapiError (status : napi_status)
| TableVersionMismatch.

Inductive Result (A : Type) : Type :=
| Returned (a : A)
| Thrown (e : Error).
Arguments Returned {A} a.
Arguments Thrown {A} e.

(** What an execution does, in order. [SetProperty o k v] is the assignment
    [o[k] = v] being made, whatever comes of it. *)
Inductive Event : Type :=
| CreateString (s : string)
| CallLanguage (p : Ptr)
| CreateExternal (p : Ptr)
| SetProperty (o : Object) (k : string) (v : Value).

(** The state [Napi::Env] stands for, together with the native side:
    - [objects]: the environment's objects;
    - [host]: what each function of the JavaScript program does when an
      assignment [o[k] = v] reaches it: the objects it leaves, and whether it
      completed ([true]) or threw ([false]);
    - [native]: whatever state the generated parser keeps;
    - [memory]: the grammar tables in native memory, by address;
    - [trace]: the events so far, oldest first. *)
Record Env (Native : Type) : Type := mkEnv {
  objects : gmap Object JSObject;
  host : Code → Object → string → Value →
         gmap Object JSObject → gmap Object JSObject * bool;
  native : Native;
  memory : gmap Ptr TSLanguage;
  trace : list Event
}.
Arguments mkEnv {Native} objects host native memory trace.
Arguments objects {Native} e.
Arguments host {Native} e.
Arguments native {Native} e.
Arguments memory {Native} e.
Arguments trace {Native} e.

(** The own property [k] of object [o], if [o] is an ordinary object that
    has one. *)
Definition Object_GetOwnProperty {Native} (env : Env Native) (o : Object)
    (k : string) : option Property :=
  match objects env !! o with
  | Some (Ordinary _ _ props) => props !! k
  | _ => None
  end.

(** The value of the own data property [k] of object [o]. *)
Definition Object_Get {Native} (env : Env Native) (o : Object) (k : string)
  : option Value :=
  match Object_GetOwnProperty env o k with
  | Some (Data v _) => Some v
  | _ => None
  end.

Definition set_memory {Native} (m : gmap Ptr TSLanguage) (env : Env Native)
  : Env Native :=
  mkEnv (objects env) (host env) (native env) m (trace env).

(** The events of [evs] that are calls to [tree_sitter_thorn], as the
    pointers they returned. *)
Definition language_calls (evs : list Event) : list Ptr :=
  omap (λ ev, match ev with CallLanguage p => Some p | _ => None end) evs.

(** The events of [evs] that assign property [k], as (object, value). *)
Definition assignments (k : string) (evs : list Event)
  : list (Object * Value) :=
  omap (λ ev, match ev with
              | SetProperty o k' v => if decide (k' = k) then Some (o, v) else None
              | _ => None
              end) evs.

(** Whether the table at [p] carries a version other than the engine's. *)
Definition version_mismatch {Native} (engine : N) (env : Env Native) (p : Ptr)
  : bool :=
  match memory env !! p with
  | Some table => negb (version table =? engine)%N
  | None => false
  end.

(** ** Assignment to a property *)

(** What the search for property [k] from object [o] up the prototype chain
    meets first. *)
Inductive Lookup : Type :=
| NotFound
| Found (prop : Property)
| Trapped (handler : Code).

(** A prototype chain has no cycle, so it is no longer than the store is
    large: [fuel] starts at that size. *)
Fixpoint lookup_chain (fuel : nat) (heap : gmap Object JSObject) (o : Object)
    (k : string) : Lookup :=
  match fuel with
  | O => NotFound
  | S fuel' =>
      match heap !! o with
      | None => NotFound
      | Some (Proxy handler) => Trapped handler
      | Some (Ordinary prototype _ props) =>
          match props !! k with
          | Some prop => Found prop
          | None =>
              match prototype with
              | Some parent => lookup_chain fuel' heap parent k
              | None => NotFound
              end
          end
      end
  end.

(** What an assignment [o[k] = v] comes to. *)
Inductive Target : Type :=
| Store            (* [o] gets, or keeps, an own writable data property *)
| Refuse           (* nothing is stored and nothing is reported *)
| Run (c : Code).  (* a setter or a proxy trap takes over *)

(** The part of the decision that looks at the receiver itself: an own
    writable data property is updated, a missing one is created if the
    object is extensible. *)
Definition own_target (heap : gmap Object JSObject) (o : Object) (k : string)
  : Target :=
  match heap !! o with
  | Some (Ordinary _ extensible props) =>
      match props !! k with
      | Some (Data _ true) => Store
      | Some _ => Refuse
      | None => if extensible then Store else Refuse
      end
  | _ => Refuse
  end.

Definition resolve (heap : gmap Object JSObject) (o : Object) (k : string)
  : Target :=
  match lookup_chain (size heap) heap o k with
  | Trapped c => Run c
  | Found (Accessor (Some c)) => Run c
  | Found (Accessor None) => Refuse
  | Found (Data _ false) => Refuse
  | Found (Data _ true) | NotFound => own_target heap o k
  end.

Definition runs_code (t : Target) : bool :=
  match t with Run _ => true | _ => false end.

(** The store after [o[k] = v] has been stored on the ordinary object [o]. *)
Definition store (o : Object) (k : string) (v : Value)
    (heap : gmap Object JSObject) : gmap Object JSObject :=
  match heap !! o with
  | Some (Ordinary prototype extensible props) =>
      <[o := Ordinary prototype extensible (<[k := Data v true]> props)]> heap
  | _ => heap
  end.

(** ** The binding *)

Section Binding.

(** [extern "C" TSLanguage *tree_sitter_thorn();] is defined by the generated
    parser: it takes no argument, returns a pointer and may touch the
    parser's own state. *)
Context {Native : Type} (tree_sitter_thorn : Native → Ptr * Native).

Definition M (A : Type) : Type := Env Native → Env Native * Result A.

#[local] Instance M_ret : MRet M := λ A a env, (env, Returned a).

#[local] Instance M_bind : MBind M := λ A B f m env,
  match m env with
  | (env', Returned a) => f a env'
  | (env', Thrown e) => (env', Thrown e)
  end.

Definition log (ev : Event) : M unit := λ env,
  (mkEnv (objects env) (host env) (native env) (memory env) (trace env ++ [ev]),
   Returned ()).

(** [Napi::String::New(env, s)] *)
Definition String_New (s : string) : M Value :=
  log (CreateString s);; mret (VString s).

(** [Napi::External<void>::New(env, data)] *)
Definition External_New (data : Ptr) : M Value :=
  log (CreateExternal data);; mret (VExternal data).

(** [object[k] = v]. On a handle that denotes no object (null or undefined
    where an object is expected) the call fails. Otherwise the assignment is
    made: it stores, or is refused and reports nothing, or runs a function
    of the program, whose exception, if it throws one, is thrown on. *)
Definition Object_Set (o : Object) (k : string) (v : Value) : M unit :=
  λ env,
  match objects env !! o with
  | None => (env, Thrown (NapiError napi_object_expected))
  | Some _ =>
      let tr := trace env ++ [SetProperty o k v] in
      match resolve (objects env) o k with
      | Store =>
          (mkEnv (store o k v (objects env)) (host env) (native env)
                 (memory env) tr,
           Returned ())
      | Refuse =>
          (mkEnv (objects env) (host env) (native env) (memory env) tr,
           Returned ())
      | Run c =>
          let '(heap, completed) := host env c o k v (objects env) in
          (mkEnv heap (host env) (native env) (memory env) tr,
           if completed then Returned ()
           else Thrown (NapiError napi_pending_exception))
      end
  end.

(** The call [tree_sitter_thorn()]. *)
Definition call_tree_sitter_thorn : M Ptr := λ env,
  let '(p, n) := tree_sitter_thorn (native env) in
  (mkEnv (objects env) (host env) n (memory env) (trace env ++ [CallLanguage p]),
   Returned p).

(** [Napi::Object Init(Napi::Env env, Napi::Object exports)]; the [env]
    argument is the state the monad threads. *)
Definition Init (exports : Object) : M Object :=
  name ← String_New "thorn";
  Object_Set exports "name" name;;
  language ← call_tree_sitter_thorn;
  external ← External_New language;
  Object_Set exports "language" external;;
  mret exports.

End Binding.

(** ** Sample environments *)

(** A generated parser whose [tree_sitter_thorn] returns the address of one
    static table and keeps no state. *)
Definition static_language (p : Ptr) : unit → Ptr * unit := λ n, (p, n).

(** A parser handing out a different address at every call. *)
Definition moving_language : Z → Ptr * Z := λ n, (4096 + 8 * n, n + 1).

(** A program none of whose functions does anything. *)
Definition idle_host : Code → Object → string → Value →
    gmap Object JSObject → gmap Object JSObject * bool :=
  λ _ _ _ _ heap, (heap, true).

(** A program whose function 5, as the setter of a property of [this],
    assigns [this.parse = undefined] and [other.language = "changed"], where
    [other] is object 2; its function 6 throws. *)
Definition meddling_host : Code → Object → string → Value →
    gmap Object JSObject → gmap Object JSObject * bool :=
  λ c this _ _ heap,
  if decide (c = 5%positive)
  then (store 2%positive "language" (VString "changed")
          (store this "parse" VUndefined heap), true)
  else (heap, false).

(** Object 9 plays the prototype of the objects below; it has no property
    and no prototype. *)
Definition bare_prototype : JSObject := Ordinary None true ∅.

(** Module load: the exports object (object 1) is fresh and empty, the table
    at address 4096 has version 14. *)
Definition fresh_env : Env unit :=
  mkEnv {[ 1%positive := Ordinary (Some 9%positive) true ∅;
           9%positive := bare_prototype ]}
        idle_host () {[ 4096 := {| version := 14 |} ]} [].

(** The properties object 1 has in [busy_env]. *)
Definition busy_props : gmap string Property :=
  {[ "name" := Data (VString "old") true;
     "parse" := Data (VObject 2%positive) true ]}.

(** An environment with properties already on the exports object (object 1)
    and a second object that has nothing to do with the module. *)
Definition busy_env : Env Z :=
  mkEnv {[ 1%positive := Ordinary (Some 9%positive) true busy_props;
           2%positive := Ordinary (Some 9%positive) true
                           {[ "language" := Data VUndefined true ]};
           9%positive := bare_prototype ]}
        idle_host 3 ∅ [CreateString "earlier"].

(** The table at address 4096 was generated for another engine version. *)
Definition stale_env : Env unit :=
  mkEnv {[ 1%positive := Ordinary (Some 9%positive) true ∅;
           9%positive := bare_prototype ]}
        idle_host () {[ 4096 := {| version := 99 |} ]} [].

(** An environment in which handle 7 denotes no object. *)
Definition empty_env : Env unit := mkEnv ∅ idle_host () ∅ [].

(** The properties object 1 has in [reloaded_env]. *)
Definition reloaded_props : gmap string Property :=
  {[ "language" := Data (VString "stale") true;
     "parse" := Data (VObject 2%positive) true ]}.

(** [busy_env] with other leftovers on the exports object: a stale "language",
    no "name", the same "parse"; the parser is in the same state. *)
Definition reloaded_env : Env Z :=
  mkEnv {[ 1%positive := Ordinary None true reloaded_props ]}
        idle_host 3 ∅ [].

(** The exports object is [Object.freeze({})]: empty and not extensible. *)
Definition frozen_env : Env unit :=
  mkEnv {[ 1%positive := Ordinary (Some 9%positive) false ∅;
           9%positive := bare_prototype ]}
        idle_host () {[ 4096 := {| version := 14 |} ]} [].

(** The exports object has a read-only "name". *)
Definition readonly_env : Env unit :=
  mkEnv {[ 1%positive := Ordinary (Some 9%positive) true
                           {[ "name" := Data (VString "fixed") false ]};
           9%positive := bare_prototype ]}
        idle_host () ∅ [].

(** The properties object 1 has in [hooked_env]: "name" is an accessor whose
    setter is function 5 of [meddling_host]. *)
Definition hooked_props : gmap string Property :=
  {[ "name" := Accessor (Some 5%positive);
     "parse" := Data (VObject 2%positive) true ]}.

Definition hooked_env : Env unit :=
  mkEnv {[ 1%positive := Ordinary (Some 9%positive) true hooked_props;
           2%positive := Ordinary (Some 9%positive) true
                           {[ "language" := Data VUndefined true ]};
           9%positive := bare_prototype ]}
        meddling_host () ∅ [].

(** The exports object inherits a "language" accessor from its prototype;
    the setter is function 6 of [meddling_host], which throws. *)
Definition throwing_env : Env unit :=
  mkEnv {[ 1%positive := Ordinary (Some 9%positive) true ∅;
           9%positive := Ordinary None true
                           {[ "language" := Accessor (Some 6%positive) ]} ]}
        meddling_host () ∅ [].

(** The five events of one run of [Init] that gets past both assignments. *)
Definition Init_events (exports : Object) (p : Ptr) : list Event :=
  [ CreateString "thorn";
    SetProperty exports "name" (VString "thorn");
    CallLanguage p;
    CreateExternal p;
    SetProperty exports "language" (VExternal p) ].

(** ** Storing a property *)

Section StoreFacts.

Implicit Types (heap : gmap Object JSObject) (o : Object) (k : string).
Implicit Types (v : Value) (props : gmap string Property).

Lemma lookup_store_eq heap o k v prototype extensible props :
  heap !! o = Some (Ordinary prototype extensible props) →
  store o k v heap !! o
    = Some (Ordinary prototype extensible (<[k := Data v true]> props)).
Proof. intros Hobj. unfold store. rewrite Hobj. apply lookup_insert_eq. Qed.

Lemma lookup_store_ne heap o o' k v :
  o ≠ o' → store o k v heap !! o' = heap !! o'.
Proof.
  intros Hne. unfold store.
  destruct (heap !! o) as [[prototype extensible props|c]|]; try done.
  by rewrite lookup_insert_ne.
Qed.

Lemma store_not_ordinary heap o k v :
  (∀ prototype extensible props,
     heap !! o ≠ Some (Ordinary prototype extensible props)) →
  store o k v heap = heap.
Proof.
  intros Hno. unfold store.
  destruct (heap !! o) as [[prototype extensible props|c]|] eqn:Hobj; try done.
  by destruct (Hno prototype extensible props).
Qed.

Lemma size_store heap o k v : size (store o k v heap) = size heap.
Proof.
  unfold store.
  destruct (heap !! o) as [[prototype extensible props|c]|] eqn:Hobj; try done.
  apply map_size_insert_Some. by eexists.
Qed.

(** Two stores on the same object, one after the other. *)
Lemma store_store heap o k1 v1 k2 v2 prototype extensible props :
  heap !! o = Some (Ordinary prototype extensible props) →
  store o k2 v2 (store o k1 v1 heap)
    = <[o := Ordinary prototype extensible
               (<[k2 := Data v2 true]> (<[k1 := Data v1 true]> props))]> heap.
Proof.
  intros Hobj. unfold store at 1.
  rewrite (lookup_store_eq heap o k1 v1 prototype extensible props Hobj).
  unfold store. rewrite Hobj. apply insert_insert_eq.
Qed.

(** The search for another key does not see the stored property. *)
Lemma lookup_chain_store_ne fuel heap o k v o' k' :
  k ≠ k' →
  lookup_chain fuel (store o k v heap) o' k' = lookup_chain fuel heap o' k'.
Proof.
  intros Hne. revert o'. induction fuel as [|fuel IH]; intros o'; [done|].
  simpl. destruct (decide (o = o')) as [<-|Ho].
  - destruct (heap !! o) as [[prototype extensible props|c]|] eqn:Hobj.
    + rewrite (lookup_store_eq heap o k v prototype extensible props Hobj).
      rewrite lookup_insert_ne by done.
      destruct (props !! k'); [done|]. destruct prototype; [apply IH|done].
    + rewrite store_not_ordinary by congruence. by rewrite Hobj.
    + rewrite store_not_ordinary by congruence. by rewrite Hobj.
  - rewrite lookup_store_ne by done.
    destruct (heap !! o') as [[prototype extensible props|c]|]; try done.
    destruct (props !! k'); [done|]. destruct prototype; [apply IH|done].
Qed.

(** The search for the stored key meets what it met before, or the stored
    property. *)
Lemma lookup_chain_store_eq fuel heap o k v o' :
  lookup_chain fuel (store o k v heap) o' k = lookup_chain fuel heap o' k ∨
  lookup_chain fuel (store o k v heap) o' k = Found (Data v true).
Proof.
  revert o'. induction fuel as [|fuel IH]; intros o'; [by left|].
  simpl. destruct (decide (o = o')) as [<-|Ho].
  - destruct (heap !! o) as [[prototype extensible props|c]|] eqn:Hobj.
    + rewrite (lookup_store_eq heap o k v prototype extensible props Hobj).
      rewrite lookup_insert_eq. by right.
    + rewrite store_not_ordinary by congruence. rewrite Hobj. by left.
    + rewrite store_not_ordinary by congruence. rewrite Hobj. by left.
  - rewrite lookup_store_ne by done.
    destruct (heap !! o') as [[prototype extensible props|c]|]; try by left.
    destruct (props !! k); [by left|]. destruct prototype; [apply IH|by left].
Qed.

Lemma own_target_store_ne heap o k v o' k' :
  k ≠ k' → own_target (store o k v heap) o' k' = own_target heap o' k'.
Proof.
  intros Hne. unfold own_target. destruct (decide (o = o')) as [<-|Ho].
  - destruct (heap !! o) as [[prototype extensible props|c]|] eqn:Hobj.
    + rewrite (lookup_store_eq heap o k v prototype extensible props Hobj).
      by rewrite lookup_insert_ne.
    + rewrite store_not_ordinary by congruence. by rewrite Hobj.
    + rewrite store_not_ordinary by congruence. by rewrite Hobj.
  - by rewrite lookup_store_ne.
Qed.

Lemma own_target_store_eq heap o k v o' :
  own_target heap o' k = Store → own_target (store o k v heap) o' k = Store.
Proof.
  unfold own_target. destruct (decide (o = o')) as [<-|Ho].
  - destruct (heap !! o) as [[prototype extensible props|c]|] eqn:Hobj; try done.
    rewrite (lookup_store_eq heap o k v prototype extensible props Hobj).
    by rewrite lookup_insert_eq.
  - by rewrite lookup_store_ne.
Qed.

(** Storing one property leaves what an assignment to another one comes to. *)
Lemma resolve_store_ne heap o k v o' k' :
  k ≠ k' → resolve (store o k v heap) o' k' = resolve heap o' k'.
Proof.
  intros Hne. unfold resolve.
  by rewrite size_store, lookup_chain_store_ne, own_target_store_ne.
Qed.

(** A property that could be stored can still be stored after a store, on
    the same object or on another. *)
Lemma resolve_store_eq heap o k v o' :
  resolve heap o' k = Store → resolve (store o k v heap) o' k = Store.
Proof.
  unfold resolve. rewrite size_store. intros Hstore.
  assert (own_target heap o' k = Store) as Hown.
  { destruct (lookup_chain (size heap) heap o' k) as [|[? []|[]]|]; done. }
  destruct (lookup_chain_store_eq (size heap) heap o k v o') as [-> | ->].
  - destruct (lookup_chain (size heap) heap o' k) as [|[? []|[]]|]; try done;
      by apply own_target_store_eq.
  - by apply own_target_store_eq.
Qed.

Lemma resolve_store heap o k v o' k' :
  resolve heap o' k' = Store → resolve (store o k v heap) o' k' = Store.
Proof.
  destruct (decide (k = k')) as [<-|Hne].
  - apply resolve_store_eq.
  - by rewrite resolve_store_ne.
Qed.

End StoreFacts.

(** ** What [Init] computes *)

Section BindingFacts.

Context {Native : Type} (tree_sitter_thorn : Native → Ptr * Native).

Implicit Types (env : Env Native) (exports o : Object) (p : Ptr) (n : Native).
Implicit Types (props : gmap string Property) (k : string) (v : Value).

Lemma Object_Set_store env o k v :
  is_Some (objects env !! o) →
  resolve (objects env) o k = Store →
  Object_Set o k v env =
    (mkEnv (store o k v (objects env)) (host env) (native env) (memory env)
           (trace env ++ [SetProperty o k v]),
     Returned ()).
Proof. intros [obj Hobj] Hstore. unfold Object_Set. by rewrite Hobj, Hstore. Qed.

Lemma Object_Set_refuse env o k v :
  is_Some (objects env !! o) →
  resolve (objects env) o k = Refuse →
  Object_Set o k v env =
    (mkEnv (objects env) (host env) (native env) (memory env)
           (trace env ++ [SetProperty o k v]),
     Returned ()).
Proof. intros [obj Hobj] Hrefuse. unfold Object_Set. by rewrite Hobj, Hrefuse. Qed.

Lemma Object_Set_run env o k v c heap completed :
  is_Some (objects env !! o) →
  resolve (objects env) o k = Run c →
  host env c o k v (objects env) = (heap, completed) →
  Object_Set o k v env =
    (mkEnv heap (host env) (native env) (memory env)
           (trace env ++ [SetProperty o k v]),
     if completed then Returned ()
     else Thrown (NapiError napi_pending_exception)).
Proof.
  intros [obj Hobj] Hrun Hhost. unfold Object_Set.
  by rewrite Hobj, Hrun, Hhost.
Qed.

Ltac run_Init :=
  unfold Init, String_New, External_New, call_tree_sitter_thorn, log;
  unfold mbind, M_bind, mret, M_ret; simpl.

(** Both assignments store: [Init] runs to its [return]. *)
Lemma Init_object env exports prototype extensible props p n :
  objects env !! exports = Some (Ordinary prototype extensible props) →
  resolve (objects env) exports "name" = Store →
  resolve (objects env) exports "language" = Store →
  tree_sitter_thorn (native env) = (p, n) →
  Init tree_sitter_thorn exports env =
    (mkEnv (<[exports := Ordinary prototype extensible
                           (<["language" := Data (VExternal p) true]>
                              (<["name" := Data (VString "thorn") true]> props))]>
              (objects env))
           (host env) n (memory env) (trace env ++ Init_events exports p),
     Returned exports).
Proof.
  intros Hobj Hname Hlanguage Hcall. run_Init.
  rewrite Object_Set_store by (by simpl; try eexists). simpl.
  rewrite Hcall; simpl.
  rewrite Object_Set_store; simpl.
  - rewrite (store_store _ _ _ _ _ _ _ _ _ Hobj).
    unfold Init_events. by rewrite <- !(assoc_L (++)).
  - rewrite (lookup_store_eq _ _ _ _ _ _ _ Hobj). by eexists.
  - by rewrite resolve_store_ne.
Qed.

(** "name" is stored and the assignment of "language" is refused: [Init]
    runs to its [return] all the same. *)
Lemma Init_language_refused env exports prototype extensible props p n :
  objects env !! exports = Some (Ordinary prototype extensible props) →
  resolve (objects env) exports "name" = Store →
  resolve (objects env) exports "language" = Refuse →
  tree_sitter_thorn (native env) = (p, n) →
  Init tree_sitter_thorn exports env =
    (mkEnv (<[exports := Ordinary prototype extensible
                           (<["name" := Data (VString "thorn") true]> props)]>
              (objects env))
           (host env) n (memory env) (trace env ++ Init_events exports p),
     Returned exports).
Proof.
  intros Hobj Hname Hlanguage Hcall. run_Init.
  rewrite Object_Set_store by (by simpl; try eexists). simpl.
  rewrite Hcall; simpl.
  rewrite Object_Set_refuse; simpl.
  - unfold store. rewrite Hobj.
    unfold Init_events. by rewrite <- !(assoc_L (++)).
  - rewrite (lookup_store_eq _ _ _ _ _ _ _ Hobj). by eexists.
  - by rewrite resolve_store_ne.
Qed.

(** On a handle that denotes no object, the first assignment throws and the
    rest of the body is skipped. *)
Lemma Init_no_object env exports :
  objects env !! exports = None →
  Init tree_sitter_thorn exports env =
    (mkEnv (objects env) (host env) (native env) (memory env)
           (trace env ++ [CreateString "thorn"]),
     Thrown (NapiError napi_object_expected)).
Proof.
  intros Hobj. run_Init. unfold Object_Set; simpl. by rewrite Hobj.
Qed.

(** Whatever [Init] throws is an error of the API, not a version error. *)
Lemma Init_error env exports :
  (Init tree_sitter_thorn exports env).2 ≠ Thrown TableVersionMismatch.
Proof.
  run_Init. unfold Object_Set; simpl.
  repeat (case_match; simpl in *; simplify_eq); done.
Qed.

(** [Init] never reads the native memory. *)
Lemma Init_set_memory env exports m :
  Init tree_sitter_thorn exports (set_memory m env) =
    (set_memory m (Init tree_sitter_thorn exports env).1,
     (Init tree_sitter_thorn exports env).2).
Proof.
  run_Init. unfold Object_Set, set_memory; simpl.
  repeat (case_match; simpl in *; simplify_eq); done.
Qed.

(** ** The exports of the module *)

(** C1, as the code has it. For every environment and every exports object
    on which "name" can be stored and the assignment of "language" runs no
    function of the program, [Init] returns and, once it has, the property
    "name" of the exports object is the string "thorn". *)
Theorem Init_exports_name env exports prototype extensible props :
  objects env !! exports = Some (Ordinary prototype extensible props) →
  resolve (objects env) exports "name" = Store →
  runs_code (resolve (objects env) exports "language") = false →
  (Init tree_sitter_thorn exports env).2 = Returned exports ∧
  Object_Get (Init tree_sitter_thorn exports env).1 exports "name"
    = Some (VString "thorn").
Proof.
  intros Hobj Hname Hlanguage.
  destruct (tree_sitter_thorn (native env)) as [p n] eqn:Hcall.
  destruct (resolve (objects env) exports "language") eqn:Htarget; [| |done].
  - rewrite (Init_object env exports prototype extensible props p n) by done.
    split; [done|].
    unfold Object_Get, Object_GetOwnProperty; simpl.
    rewrite lookup_insert_eq.
    by rewrite lookup_insert_ne, lookup_insert_eq.
  - rewrite (Init_language_refused env exports prototype extensible props p n)
      by done.
    split; [done|].
    unfold Object_Get, Object_GetOwnProperty; simpl.
    by rewrite !lookup_insert_eq.
Qed.

(** C2, as the code has it. For every invocation of [Init] on an exports
    object on which "name" and "language" can be stored, the property
    "language" ends up as an External wrapping exactly the pointer [p] that
    [tree_sitter_thorn()] returned; the invocation calls [tree_sitter_thorn]
    once, leaves the parser in the state that call produced, and assigns
    "language" once, on the exports object, to that External. Afterwards the
    two properties can be stored again: a further invocation on the same
    object does all of this anew, with the pointer of its own call. *)
Theorem Init_exports_language env exports prototype extensible props :
  objects env !! exports = Some (Ordinary prototype extensible props) →
  resolve (objects env) exports "name" = Store →
  resolve (objects env) exports "language" = Store →
  ∃ p n evs,
    tree_sitter_thorn (native env) = (p, n) ∧
    native (Init tree_sitter_thorn exports env).1 = n ∧
    trace (Init tree_sitter_thorn exports env).1 = trace env ++ evs ∧
    language_calls evs = [p] ∧
    assignments "language" evs = [(exports, VExternal p)] ∧
    Object_Get (Init tree_sitter_thorn exports env).1 exports "language"
      = Some (VExternal p) ∧
    resolve (objects (Init tree_sitter_thorn exports env).1) exports "name"
      = Store ∧
    resolve (objects (Init tree_sitter_thorn exports env).1) exports "language"
      = Store.
Proof.
  intros Hobj Hname Hlanguage.
  destruct (tree_sitter_thorn (native env)) as [p n] eqn:Hcall.
  exists p, n, (Init_events exports p).
  rewrite (Init_object env exports prototype extensible props p n) by done; simpl.
  split_and!; try done.
  - unfold Object_Get, Object_GetOwnProperty; simpl.
    by rewrite !lookup_insert_eq.
  - rewrite <- (store_store _ _ "name" (VString "thorn") "language" (VExternal p)
                  _ _ _ Hobj).
    by do 2 apply resolve_store.
  - rewrite <- (store_store _ _ "name" (VString "thorn") "language" (VExternal p)
                  _ _ _ Hobj).
    by do 2 apply resolve_store.
Qed.

(** C9, as the code has it. On an exports object on which "name" and
    "language" can be stored, [Init] returns the handle it was passed. On the
    exports object it assigns "name" and "language" and nothing else: its
    prototype, its extensibility and every other property are as before.
    Every other object of the environment, the set of objects and the native
    memory are as before. *)
Theorem Init_frame env exports prototype extensible props :
  objects env !! exports = Some (Ordinary prototype extensible props) →
  resolve (objects env) exports "name" = Store →
  resolve (objects env) exports "language" = Store →
  (Init tree_sitter_thorn exports env).2 = Returned exports ∧
  (∃ handle,
     objects (Init tree_sitter_thorn exports env).1 !! exports
       = Some (Ordinary prototype extensible
                 (<["language" := Data handle true]>
                    (<["name" := Data (VString "thorn") true]> props)))) ∧
  (∀ k, k ≠ "name" → k ≠ "language" →
     Object_GetOwnProperty (Init tree_sitter_thorn exports env).1 exports k
       = props !! k) ∧
  (∀ o, o ≠ exports →
     objects (Init tree_sitter_thorn exports env).1 !! o = objects env !! o) ∧
  dom (objects (Init tree_sitter_thorn exports env).1) = dom (objects env) ∧
  memory (Init tree_sitter_thorn exports env).1 = memory env.
Proof.
  intros Hobj Hname Hlanguage.
  destruct (tree_sitter_thorn (native env)) as [p n] eqn:Hcall.
  rewrite (Init_object env exports prototype extensible props p n) by done; simpl.
  split_and!; [done| | | | |done].
  - exists (VExternal p). by rewrite lookup_insert_eq.
  - intros k Hk1 Hk2. unfold Object_GetOwnProperty; simpl.
    rewrite lookup_insert_eq.
    by rewrite !lookup_insert_ne.
  - intros o Ho. by rewrite lookup_insert_ne.
  - rewrite dom_insert_L.
    apply subseteq_union_1_L, singleton_subseteq_l.
    by apply (elem_of_dom_2 (D:=gset Object)) in Hobj.
Qed.

(** C10. Whatever pointer [tree_sitter_thorn()] returns, the null pointer
    included, [Init] raises nothing and exports an External wrapping that
    very pointer: between the call and the wrapping there is no event, hence
    no check. The exports object is one on which "name" and "language" can
    be stored. *)
Theorem Init_wraps_any_pointer env exports prototype extensible props p n :
  objects env !! exports = Some (Ordinary prototype extensible props) →
  resolve (objects env) exports "name" = Store →
  resolve (objects env) exports "language" = Store →
  tree_sitter_thorn (native env) = (p, n) →
  (Init tree_sitter_thorn exports env).2 = Returned exports ∧
  Object_Get (Init tree_sitter_thorn exports env).1 exports "language"
    = Some (VExternal p) ∧
  ∃ before after,
    trace (Init tree_sitter_thorn exports env).1
      = before ++ [CallLanguage p; CreateExternal p] ++ after.
Proof.
  intros Hobj Hname Hlanguage Hcall.
  rewrite (Init_object env exports prototype extensible props p n) by done; simpl.
  split_and!; [done| |].
  - unfold Object_Get, Object_GetOwnProperty; simpl.
    by rewrite !lookup_insert_eq.
  - exists (trace env ++ [CreateString "thorn";
                          SetProperty exports "name" (VString "thorn")]),
           [SetProperty exports "language" (VExternal p)].
    unfold Init_events. by rewrite <- (assoc_L (++)).
Qed.

(** C8, as the code has it. [Init] does not look at the grammar table: for
    every table, also one whose version tag differs from the engine's, it
    returns normally and exports the handle; it never reports
    [TableVersionMismatch]; and what it does is the same whatever the native
    memory holds. The exports object is one on which "name" and "language"
    can be stored. *)
Theorem Init_ignores_table_version (engine : N) env exports prototype extensible
    props p n :
  objects env !! exports = Some (Ordinary prototype extensible props) →
  resolve (objects env) exports "name" = Store →
  resolve (objects env) exports "language" = Store →
  tree_sitter_thorn (native env) = (p, n) →
  version_mismatch engine env p = true →
  (Init tree_sitter_thorn exports env).2 = Returned exports ∧
  Object_Get (Init tree_sitter_thorn exports env).1 exports "language"
    = Some (VExternal p) ∧
  (∀ env' exports', (Init tree_sitter_thorn exports' env').2
                      ≠ Thrown TableVersionMismatch) ∧
  (∀ m, Init tree_sitter_thorn exports (set_memory m env) =
          (set_memory m (Init tree_sitter_thorn exports env).1,
           (Init tree_sitter_thorn exports env).2)).
Proof.
  intros Hobj Hname Hlanguage Hcall _.
  split_and!.
  - by rewrite (Init_object env exports prototype extensible props p n).
  - rewrite (Init_object env exports prototype extensible props p n) by done.
    unfold Object_Get, Object_GetOwnProperty; simpl.
    by rewrite !lookup_insert_eq.
  - intros env' exports'. apply Init_error.
  - intros m. apply Init_set_memory.
Qed.

End BindingFacts.

(** ** The theorems at the sample environments *)

(** On a handle that denotes no object the first assignment throws: nothing
    is exported and [tree_sitter_thorn] is not called. *)
Example Init_on_no_object :
  Init (static_language 4096) 7%positive empty_env =
    (mkEnv ∅ idle_host () ∅ [CreateString "thorn"],
     Thrown (NapiError napi_object_expected)).
Proof. reflexivity. Qed.

(** Module load on a fresh exports object. *)
Lemma Init_exports_name_fresh :
  objects fresh_env !! 1%positive = Some (Ordinary (Some 9%positive) true ∅) ∧
  resolve (objects fresh_env) 1%positive "name" = Store ∧
  runs_code (resolve (objects fresh_env) 1%positive "language") = false ∧
  (Init (static_language 4096) 1%positive fresh_env).2 = Returned 1%positive ∧
  Object_Get (Init (static_language 4096) 1%positive fresh_env).1
    1%positive "name" = Some (VString "thorn").
Proof.
  split; [reflexivity|]. split; [reflexivity|]. split; [reflexivity|].
  apply (Init_exports_name (static_language 4096) fresh_env 1%positive
           (Some 9%positive) true ∅); reflexivity.
Defined.

(** C1, as the claim has it, fails. On [Object.freeze({})] as the exports
    object [Init] returns and there is no "name"; on an exports object with
    a read-only "name" it returns and "name" is what it was. *)
Lemma Init_skips_name_on_frozen_exports :
  (objects frozen_env !! 1%positive
     = Some (Ordinary (Some 9%positive) false ∅) ∧
   (Init (static_language 4096) 1%positive frozen_env).2 = Returned 1%positive ∧
   Object_Get (Init (static_language 4096) 1%positive frozen_env).1
     1%positive "name" = None) ∧
  (Object_GetOwnProperty readonly_env 1%positive "name"
     = Some (Data (VString "fixed") false) ∧
   (Init (static_language 4096) 1%positive readonly_env).2
     = Returned 1%positive ∧
   Object_Get (Init (static_language 4096) 1%positive readonly_env).1
     1%positive "name" = Some (VString "fixed")).
Proof. split_and!; reflexivity. Qed.

(** With three earlier calls behind it, the parser hands out address 4120;
    that is the pointer the handle wraps. *)
Lemma Init_exports_language_busy :
  objects busy_env !! 1%positive
    = Some (Ordinary (Some 9%positive) true busy_props) ∧
  resolve (objects busy_env) 1%positive "name" = Store ∧
  resolve (objects busy_env) 1%positive "language" = Store ∧
  ∃ p n evs,
    moving_language (native busy_env) = (p, n) ∧
    native (Init moving_language 1%positive busy_env).1 = n ∧
    trace (Init moving_language 1%positive busy_env).1 = trace busy_env ++ evs ∧
    language_calls evs = [p] ∧
    assignments "language" evs = [(1%positive, VExternal p)] ∧
    Object_Get (Init moving_language 1%positive busy_env).1 1%positive "language"
      = Some (VExternal p) ∧
    resolve (objects (Init moving_language 1%positive busy_env).1)
      1%positive "name" = Store ∧
    resolve (objects (Init moving_language 1%positive busy_env).1)
      1%positive "language" = Store.
Proof.
  split; [reflexivity|]. split; [reflexivity|]. split; [reflexivity|].
  apply (Init_exports_language moving_language busy_env 1%positive
           (Some 9%positive) true busy_props); reflexivity.
Defined.

(** C2, as the claim has it, fails twice over. On [Object.freeze({})] as the
    exports object [Init] returns and no "language" is exported. And the
    handle does not last: on the exports object of [busy_env] a first run
    exports the External of address 4120, a second run on the same object
    replaces it by the External of address 4128. *)
Lemma Init_language_not_stable :
  ((Init (static_language 4096) 1%positive frozen_env).2 = Returned 1%positive ∧
   Object_Get (Init (static_language 4096) 1%positive frozen_env).1
     1%positive "language" = None) ∧
  (Object_Get (Init moving_language 1%positive busy_env).1
     1%positive "language" = Some (VExternal 4120) ∧
   (Init moving_language 1%positive
      (Init moving_language 1%positive busy_env).1).2 = Returned 1%positive ∧
   Object_Get (Init moving_language 1%positive
                 (Init moving_language 1%positive busy_env).1).1
     1%positive "language" = Some (VExternal 4128)).
Proof. split_and!; reflexivity. Qed.

(** The property "parse" of the exports object and the whole of object 2
    survive [Init]. *)
Lemma Init_frame_busy :
  objects busy_env !! 1%positive
    = Some (Ordinary (Some 9%positive) true busy_props) ∧
  resolve (objects busy_env) 1%positive "name" = Store ∧
  resolve (objects busy_env) 1%positive "language" = Store ∧
  (Init moving_language 1%positive busy_env).2 = Returned 1%positive ∧
  (∃ handle,
     objects (Init moving_language 1%positive busy_env).1 !! 1%positive
       = Some (Ordinary (Some 9%positive) true
                 (<["language" := Data handle true]>
                    (<["name" := Data (VString "thorn") true]> busy_props)))) ∧
  (∀ k : string, k ≠ "name" → k ≠ "language" →
     Object_GetOwnProperty (Init moving_language 1%positive busy_env).1
       1%positive k = busy_props !! k) ∧
  (∀ o : Object, o ≠ 1%positive →
     objects (Init moving_language 1%positive busy_env).1 !! o
       = objects busy_env !! o) ∧
  dom (objects (Init moving_language 1%positive busy_env).1)
    = dom (objects busy_env) ∧
  memory (Init moving_language 1%positive busy_env).1 = memory busy_env.
Proof.
  split; [reflexivity|]. split; [reflexivity|]. split; [reflexivity|].
  apply (Init_frame moving_language busy_env 1%positive
           (Some 9%positive) true busy_props); reflexivity.
Defined.

(** C9, as the claim has it, fails. "name" of the exports object is an
    accessor; assigning it runs the setter, which changes "parse" of the
    exports object and "language" of object 2. [Init] returns the exports
    object all the same. *)
Lemma Init_setter_breaks_frame :
  resolve (objects hooked_env) 1%positive "name" = Run 5%positive ∧
  (Init (static_language 4096) 1%positive hooked_env).2 = Returned 1%positive ∧
  Object_GetOwnProperty hooked_env 1%positive "parse"
    = Some (Data (VObject 2%positive) true) ∧
  Object_GetOwnProperty (Init (static_language 4096) 1%positive hooked_env).1
    1%positive "parse" = Some (Data VUndefined true) ∧
  Object_GetOwnProperty hooked_env 2%positive "language"
    = Some (Data VUndefined true) ∧
  Object_GetOwnProperty (Init (static_language 4096) 1%positive hooked_env).1
    2%positive "language" = Some (Data (VString "changed") true).
Proof. split_and!; reflexivity. Qed.

(** A parser that returns the null pointer: the caller gets an External
    wrapping NULL. *)
Lemma Init_wraps_null :
  objects fresh_env !! 1%positive = Some (Ordinary (Some 9%positive) true ∅) ∧
  resolve (objects fresh_env) 1%positive "name" = Store ∧
  resolve (objects fresh_env) 1%positive "language" = Store ∧
  static_language NULL (native fresh_env) = (NULL, ()) ∧
  (Init (static_language NULL) 1%positive fresh_env).2 = Returned 1%positive ∧
  Object_Get (Init (static_language NULL) 1%positive fresh_env).1
    1%positive "language" = Some (VExternal NULL) ∧
  ∃ before after,
    trace (Init (static_language NULL) 1%positive fresh_env).1
      = before ++ [CallLanguage NULL; CreateExternal NULL] ++ after.
Proof.
  split; [reflexivity|]. split; [reflexivity|]. split; [reflexivity|].
  split; [reflexivity|].
  apply (Init_wraps_any_pointer (static_language NULL) fresh_env 1%positive
           (Some 9%positive) true ∅ NULL ()); reflexivity.
Defined.

(** An engine of version 14 and a table of version 99. *)
Lemma Init_ignores_table_version_stale :
  objects stale_env !! 1%positive = Some (Ordinary (Some 9%positive) true ∅) ∧
  resolve (objects stale_env) 1%positive "name" = Store ∧
  resolve (objects stale_env) 1%positive "language" = Store ∧
  static_language 4096 (native stale_env) = (4096, ()) ∧
  version_mismatch 14 stale_env 4096 = true ∧
  (Init (static_language 4096) 1%positive stale_env).2 = Returned 1%positive ∧
  Object_Get (Init (static_language 4096) 1%positive stale_env).1
    1%positive "language" = Some (VExternal 4096) ∧
  (∀ env' exports', (Init (static_language 4096) exports' env').2
                      ≠ Thrown TableVersionMismatch) ∧
  (∀ m, Init (static_language 4096) 1%positive (set_memory m stale_env) =
          (set_memory m (Init (static_language 4096) 1%positive stale_env).1,
           (Init (static_language 4096) 1%positive stale_env).2)).
Proof.
  split; [reflexivity|]. split; [reflexivity|]. split; [reflexivity|].
  split; [reflexivity|]. split; [reflexivity|].
  apply (Init_ignores_table_version (static_language 4096) 14%N stale_env
           1%positive (Some 9%positive) true ∅ 4096 ()); reflexivity.
Defined.

(** C8, as the claim has it, fails: the table at the returned address has
    version 99, the engine version 14, and [Init] reports no
    [TableVersionMismatch] but returns with the handle exported. *)
Lemma Init_exposes_stale_table :
  static_language 4096 (native stale_env) = (4096, ()) ∧
  memory stale_env !! 4096 = Some {| version := 99 |} ∧
  version_mismatch 14 stale_env 4096 = true ∧
  (Init (static_language 4096) 1%positive stale_env).2
    ≠ Thrown TableVersionMismatch ∧
  (Init (static_language 4096) 1%positive stale_env).2 = Returned 1%positive ∧
  Object_Get (Init (static_language 4096) 1%positive stale_env).1
    1%positive "language" = Some (VExternal 4096).
Proof.
  split_and!; try reflexivity.
  vm_compute. discriminate.
Qed.

(** ** Invocations of [Init] one after another, and assignments that do
    not store

    The state an invocation leaves is the state the next one starts from. *)

Section BindingComposition.

Context {Native : Type} (tree_sitter_thorn : Native → Ptr * Native).

Implicit Types (env : Env Native) (exports o : Object) (p : Ptr) (n : Native).
Implicit Types (props : gmap string Property) (k : string).

(** Assigning "name" and "language" to an object that already carries the
    two from an earlier run leaves the later "language" and nothing of the
    earlier one. *)
Lemma exports_overwritten props (name l1 l2 : Property) :
  <["language" := l2]> (<["name" := name]>
     (<["language" := l1]> (<["name" := name]> props)))
  = <["language" := l2]> (<["name" := name]> props).
Proof.
  rewrite (insert_insert_ne (<["name" := name]> props) "name" "language") by done.
  by rewrite !insert_insert_eq.
Qed.

(** What could be stored before a run of [Init] that stores, on any object,
    can be stored after it. *)
Lemma Init_keeps_Store env exports prototype extensible props o k :
  objects env !! exports = Some (Ordinary prototype extensible props) →
  resolve (objects env) exports "name" = Store →
  resolve (objects env) exports "language" = Store →
  resolve (objects env) o k = Store →
  resolve (objects (Init tree_sitter_thorn exports env).1) o k = Store.
Proof.
  intros Hobj Hname Hlanguage Hstore.
  destruct (tree_sitter_thorn (native env)) as [p n] eqn:Hcall.
  rewrite (Init_object tree_sitter_thorn env exports prototype extensible props
             p n) by done; simpl.
  rewrite <- (store_store _ _ "name" (VString "thorn") "language" (VExternal p)
                _ _ _ Hobj).
  by do 2 apply resolve_store.
Qed.

(** Running [Init] again on the same exports object succeeds again and
    leaves the object as one run would, except that "language" wraps the
    pointer of the second call to [tree_sitter_thorn()]; when the two
    pointers differ, so does the exported value. *)
Theorem Init_twice env exports prototype extensible props p1 n1 p2 n2 :
  objects env !! exports = Some (Ordinary prototype extensible props) →
  resolve (objects env) exports "name" = Store →
  resolve (objects env) exports "language" = Store →
  tree_sitter_thorn (native env) = (p1, n1) →
  tree_sitter_thorn n1 = (p2, n2) →
  let once := Init tree_sitter_thorn exports env in
  let twice := Init tree_sitter_thorn exports once.1 in
  twice.2 = Returned exports ∧
  objects twice.1
    = <[exports := Ordinary prototype extensible
                     (<["language" := Data (VExternal p2) true]>
                        (<["name" := Data (VString "thorn") true]> props))]>
        (objects env) ∧
  native twice.1 = n2 ∧
  language_calls (drop (length (trace env)) (trace twice.1)) = [p1; p2] ∧
  (p1 ≠ p2 →
   Object_Get twice.1 exports "language" ≠ Object_Get once.1 exports "language").
Proof.
  intros Hobj Hname Hlanguage Hcall1 Hcall2; simpl.
  pose proof (Init_keeps_Store env exports prototype extensible props
                exports "name" Hobj Hname Hlanguage Hname) as Hname'.
  pose proof (Init_keeps_Store env exports prototype extensible props
                exports "language" Hobj Hname Hlanguage Hlanguage) as Hlanguage'.
  revert Hname' Hlanguage'.
  rewrite (Init_object tree_sitter_thorn env exports prototype extensible props
             p1 n1) by done; simpl.
  intros Hname' Hlanguage'.
  erewrite (Init_object tree_sitter_thorn _ exports prototype extensible _ p2 n2);
    [|by apply lookup_insert_eq|done|done|done]; simpl.
  rewrite insert_insert_eq, exports_overwritten.
  split_and!; [done|done|done| |].
  - rewrite <- (assoc_L (++)), drop_app_length. done.
  - intros Hne. unfold Object_Get, Object_GetOwnProperty; simpl.
    rewrite !lookup_insert_eq. congruence.
Qed.

(** Two runs of [Init] on two different exports objects: each object gets
    its own "name" and its own "language", wrapping the pointer of the call
    made in its own run, and the second run leaves the first object as the
    first run left it. *)
Theorem Init_two_modules env exports1 exports2 prototype1 extensible1 props1
    prototype2 extensible2 props2 p1 n1 p2 n2 :
  exports1 ≠ exports2 →
  objects env !! exports1 = Some (Ordinary prototype1 extensible1 props1) →
  objects env !! exports2 = Some (Ordinary prototype2 extensible2 props2) →
  resolve (objects env) exports1 "name" = Store →
  resolve (objects env) exports1 "language" = Store →
  resolve (objects env) exports2 "name" = Store →
  resolve (objects env) exports2 "language" = Store →
  tree_sitter_thorn (native env) = (p1, n1) →
  tree_sitter_thorn n1 = (p2, n2) →
  let first := Init tree_sitter_thorn exports1 env in
  let second := Init tree_sitter_thorn exports2 first.1 in
  second.2 = Returned exports2 ∧
  objects second.1 !! exports1
    = Some (Ordinary prototype1 extensible1
              (<["language" := Data (VExternal p1) true]>
                 (<["name" := Data (VString "thorn") true]> props1))) ∧
  objects second.1 !! exports2
    = Some (Ordinary prototype2 extensible2
              (<["language" := Data (VExternal p2) true]>
                 (<["name" := Data (VString "thorn") true]> props2))) ∧
  native second.1 = n2.
Proof.
  intros Hne Hobj1 Hobj2 Hname1 Hlanguage1 Hname2 Hlanguage2 Hcall1 Hcall2; simpl.
  pose proof (Init_keeps_Store env exports1 prototype1 extensible1 props1
                exports2 "name" Hobj1 Hname1 Hlanguage1 Hname2) as Hname'.
  pose proof (Init_keeps_Store env exports1 prototype1 extensible1 props1
                exports2 "language" Hobj1 Hname1 Hlanguage1 Hlanguage2)
    as Hlanguage'.
  revert Hname' Hlanguage'.
  rewrite (Init_object tree_sitter_thorn env exports1 prototype1 extensible1
             props1 p1 n1) by done; simpl.
  intros Hname' Hlanguage'.
  erewrite (Init_object tree_sitter_thorn _ exports2 prototype2 extensible2
              props2 p2 n2);
    [|by simpl; rewrite lookup_insert_ne|done|done|done]; simpl.
  split_and!; [done| | |done].
  - by rewrite (lookup_insert_ne _ exports2 exports1), lookup_insert_eq.
  - by rewrite lookup_insert_eq.
Qed.

(** What [Init] leaves on the exports object does not depend on what "name"
    and "language" held before, nor on anything else in the environment: in
    two environments whose exports objects agree on the other properties and
    can have the two stored, with the parser in the same state, every
    property of the exports object reads the same afterwards, and so do the
    result and the parser's state. *)
Theorem Init_forgets_old_exports (env1 env2 : Env Native) exports
    prototype1 extensible1 props1 prototype2 extensible2 props2 :
  objects env1 !! exports = Some (Ordinary prototype1 extensible1 props1) →
  objects env2 !! exports = Some (Ordinary prototype2 extensible2 props2) →
  resolve (objects env1) exports "name" = Store →
  resolve (objects env1) exports "language" = Store →
  resolve (objects env2) exports "name" = Store →
  resolve (objects env2) exports "language" = Store →
  native env1 = native env2 →
  delete "name" (delete "language" props1)
    = delete "name" (delete "language" props2) →
  (∀ k, Object_GetOwnProperty (Init tree_sitter_thorn exports env1).1 exports k
        = Object_GetOwnProperty (Init tree_sitter_thorn exports env2).1 exports k) ∧
  (Init tree_sitter_thorn exports env1).2
    = (Init tree_sitter_thorn exports env2).2 ∧
  native (Init tree_sitter_thorn exports env1).1
    = native (Init tree_sitter_thorn exports env2).1.
Proof.
  intros Hobj1 Hobj2 Hname1 Hlanguage1 Hname2 Hlanguage2 Hnative Hrest.
  destruct (tree_sitter_thorn (native env1)) as [p n] eqn:Hcall1.
  assert (Hcall2 : tree_sitter_thorn (native env2) = (p, n)) by congruence.
  rewrite (Init_object tree_sitter_thorn env1 exports prototype1 extensible1
             props1 p n) by done.
  rewrite (Init_object tree_sitter_thorn env2 exports prototype2 extensible2
             props2 p n) by done.
  simpl. split_and!; [|done|done].
  intros k. unfold Object_GetOwnProperty; simpl. rewrite !lookup_insert_eq.
  destruct (decide (k = "language")) as [->|Hk1];
    [by rewrite !lookup_insert_eq|].
  rewrite !(lookup_insert_ne _ "language" k) by done.
  destruct (decide (k = "name")) as [->|Hk2];
    [by rewrite !lookup_insert_eq|].
  rewrite !(lookup_insert_ne _ "name" k) by done.
  apply (f_equal (λ ps : gmap string Property, ps !! k)) in Hrest.
  by rewrite !lookup_delete_ne in Hrest.
Qed.

(** [Init] does not look at what comes of its assignments. When both are
    refused (a frozen exports object, say) it calls [tree_sitter_thorn()]
    all the same and returns the exports object, with no error and with
    every object as it was: nothing has been exported. *)
Theorem Init_refused env exports (object : JSObject) p n :
  objects env !! exports = Some object →
  resolve (objects env) exports "name" = Refuse →
  resolve (objects env) exports "language" = Refuse →
  tree_sitter_thorn (native env) = (p, n) →
  (Init tree_sitter_thorn exports env).2 = Returned exports ∧
  objects (Init tree_sitter_thorn exports env).1 = objects env ∧
  native (Init tree_sitter_thorn exports env).1 = n ∧
  trace (Init tree_sitter_thorn exports env).1
    = trace env ++ Init_events exports p.
Proof.
  intros Hobj Hname Hlanguage Hcall.
  unfold Init, String_New, External_New, call_tree_sitter_thorn, log.
  unfold mbind, M_bind, mret, M_ret; simpl.
  rewrite Object_Set_refuse by (by simpl; try eexists); simpl.
  rewrite Hcall; simpl.
  rewrite Object_Set_refuse by (by simpl; try eexists); simpl.
  split_and!; try done.
  unfold Init_events. by rewrite <- !(assoc_L (++)).
Qed.

(** [Init] is not all-or-nothing. When "name" is stored and the assignment
    of "language" runs a function of the program that throws, [Init] throws
    in its turn, after it has stored "name" and called
    [tree_sitter_thorn()]: the objects are those that function left, having
    been handed the store with "name" in it. *)
Theorem Init_throws_after_name env exports prototype extensible props p n c heap :
  objects env !! exports = Some (Ordinary prototype extensible props) →
  resolve (objects env) exports "name" = Store →
  resolve (objects env) exports "language" = Run c →
  tree_sitter_thorn (native env) = (p, n) →
  host env c exports "language" (VExternal p)
    (store exports "name" (VString "thorn") (objects env)) = (heap, false) →
  (Init tree_sitter_thorn exports env).2
    = Thrown (NapiError napi_pending_exception) ∧
  objects (Init tree_sitter_thorn exports env).1 = heap ∧
  native (Init tree_sitter_thorn exports env).1 = n ∧
  language_calls (drop (length (trace env))
                    (trace (Init tree_sitter_thorn exports env).1)) = [p].
Proof.
  intros Hobj Hname Hlanguage Hcall Hhost.
  unfold Init, String_New, External_New, call_tree_sitter_thorn, log.
  unfold mbind, M_bind, mret, M_ret; simpl.
  rewrite Object_Set_store by (by simpl; try eexists). simpl.
  rewrite Hcall; simpl.
  rewrite (Object_Set_run _ exports "language" (VExternal p) c heap false);
    simpl.
  - split_and!; try done.
    rewrite <- !(assoc_L (++)), drop_app_length. done.
  - rewrite (lookup_store_eq _ _ _ _ _ _ _ Hobj). by eexists.
  - rewrite resolve_store_ne by done. exact Hlanguage.
  - exact Hhost.
Qed.

End BindingComposition.

(** ** The composition theorems at the sample environments *)

(** The moving parser returns 4120 and then 4128: the second run replaces
    the handle. *)
Lemma Init_twice_busy :
  objects busy_env !! 1%positive
    = Some (Ordinary (Some 9%positive) true busy_props) ∧
  resolve (objects busy_env) 1%positive "name" = Store ∧
  resolve (objects busy_env) 1%positive "language" = Store ∧
  moving_language (native busy_env) = (4120, 4) ∧
  moving_language 4 = (4128, 5) ∧
  let once := Init moving_language 1%positive busy_env in
  let twice := Init moving_language 1%positive once.1 in
  twice.2 = Returned 1%positive ∧
  objects twice.1
    = <[1%positive := Ordinary (Some 9%positive) true
                        (<["language" := Data (VExternal 4128) true]>
                           (<["name" := Data (VString "thorn") true]> busy_props))]>
        (objects busy_env) ∧
  native twice.1 = 5 ∧
  language_calls (drop (length (trace busy_env)) (trace twice.1)) = [4120; 4128] ∧
  (4120 ≠ 4128 →
   Object_Get twice.1 1%positive "language"
     ≠ Object_Get once.1 1%positive "language").
Proof.
  split; [reflexivity|]. split; [reflexivity|]. split; [reflexivity|].
  split; [reflexivity|]. split; [reflexivity|].
  apply (Init_twice moving_language busy_env 1%positive (Some 9%positive) true
           busy_props 4120 4 4128 5); reflexivity.
Defined.

(** Objects 1 and 2 of [busy_env] as the exports objects of two loads. *)
Lemma Init_two_modules_busy :
  1%positive ≠ 2%positive ∧
  objects busy_env !! 1%positive
    = Some (Ordinary (Some 9%positive) true busy_props) ∧
  objects busy_env !! 2%positive
    = Some (Ordinary (Some 9%positive) true
              {[ "language" := Data VUndefined true ]}) ∧
  resolve (objects busy_env) 1%positive "name" = Store ∧
  resolve (objects busy_env) 1%positive "language" = Store ∧
  resolve (objects busy_env) 2%positive "name" = Store ∧
  resolve (objects busy_env) 2%positive "language" = Store ∧
  moving_language (native busy_env) = (4120, 4) ∧
  moving_language 4 = (4128, 5) ∧
  let first := Init moving_language 1%positive busy_env in
  let second := Init moving_language 2%positive first.1 in
  second.2 = Returned 2%positive ∧
  objects second.1 !! 1%positive
    = Some (Ordinary (Some 9%positive) true
              (<["language" := Data (VExternal 4120) true]>
                 (<["name" := Data (VString "thorn") true]> busy_props))) ∧
  objects second.1 !! 2%positive
    = Some (Ordinary (Some 9%positive) true
              (<["language" := Data (VExternal 4128) true]>
                 (<["name" := Data (VString "thorn") true]>
                    {[ "language" := Data VUndefined true ]}))) ∧
  native second.1 = 5.
Proof.
  split; [lia|]. split; [reflexivity|]. split; [reflexivity|].
  split; [reflexivity|]. split; [reflexivity|]. split; [reflexivity|].
  split; [reflexivity|]. split; [reflexivity|]. split; [reflexivity|].
  apply (Init_two_modules moving_language busy_env 1%positive 2%positive
           (Some 9%positive) true busy_props
           (Some 9%positive) true {[ "language" := Data VUndefined true ]}
           4120 4 4128 5);
    first [lia | reflexivity].
Defined.

(** [busy_env] and [reloaded_env] differ in "name" and "language" of the
    exports object, in its prototype, in their other objects and in their
    traces. *)
Lemma Init_forgets_old_exports_busy :
  objects busy_env !! 1%positive
    = Some (Ordinary (Some 9%positive) true busy_props) ∧
  objects reloaded_env !! 1%positive = Some (Ordinary None true reloaded_props) ∧
  resolve (objects busy_env) 1%positive "name" = Store ∧
  resolve (objects busy_env) 1%positive "language" = Store ∧
  resolve (objects reloaded_env) 1%positive "name" = Store ∧
  resolve (objects reloaded_env) 1%positive "language" = Store ∧
  native busy_env = native reloaded_env ∧
  delete "name" (delete "language" busy_props)
    = delete "name" (delete "language" reloaded_props) ∧
  (∀ k : string,
     Object_GetOwnProperty (Init moving_language 1%positive busy_env).1
       1%positive k
     = Object_GetOwnProperty (Init moving_language 1%positive reloaded_env).1
         1%positive k) ∧
  (Init moving_language 1%positive busy_env).2
    = (Init moving_language 1%positive reloaded_env).2 ∧
  native (Init moving_language 1%positive busy_env).1
    = native (Init moving_language 1%positive reloaded_env).1.
Proof.
  split; [reflexivity|]. split; [reflexivity|]. split; [reflexivity|].
  split; [reflexivity|]. split; [reflexivity|]. split; [reflexivity|].
  split; [reflexivity|]. split; [vm_compute; reflexivity|].
  apply (Init_forgets_old_exports moving_language busy_env reloaded_env
           1%positive (Some 9%positive) true busy_props None true reloaded_props);
    first [reflexivity | vm_compute; reflexivity].
Defined.

(** [Object.freeze({})] as the exports object. *)
Lemma Init_refused_frozen :
  objects frozen_env !! 1%positive = Some (Ordinary (Some 9%positive) false ∅) ∧
  resolve (objects frozen_env) 1%positive "name" = Refuse ∧
  resolve (objects frozen_env) 1%positive "language" = Refuse ∧
  static_language 4096 (native frozen_env) = (4096, ()) ∧
  (Init (static_language 4096) 1%positive frozen_env).2 = Returned 1%positive ∧
  objects (Init (static_language 4096) 1%positive frozen_env).1
    = objects frozen_env ∧
  native (Init (static_language 4096) 1%positive frozen_env).1 = () ∧
  trace (Init (static_language 4096) 1%positive frozen_env).1
    = trace frozen_env ++ Init_events 1%positive 4096.
Proof.
  split; [reflexivity|]. split; [reflexivity|]. split; [reflexivity|].
  split; [reflexivity|].
  apply (Init_refused (static_language 4096) frozen_env 1%positive
           (Ordinary (Some 9%positive) false ∅) 4096 ()); reflexivity.
Defined.

(** The exports object inherits a "language" setter that throws. *)
Lemma Init_throws_after_name_inherited :
  objects throwing_env !! 1%positive = Some (Ordinary (Some 9%positive) true ∅) ∧
  resolve (objects throwing_env) 1%positive "name" = Store ∧
  resolve (objects throwing_env) 1%positive "language" = Run 6%positive ∧
  static_language 4096 (native throwing_env) = (4096, ()) ∧
  host throwing_env 6%positive 1%positive "language" (VExternal 4096)
    (store 1%positive "name" (VString "thorn") (objects throwing_env))
    = (store 1%positive "name" (VString "thorn") (objects throwing_env), false) ∧
  (Init (static_language 4096) 1%positive throwing_env).2
    = Thrown (NapiError napi_pending_exception) ∧
  objects (Init (static_language 4096) 1%positive throwing_env).1
    = store 1%positive "name" (VString "thorn") (objects throwing_env) ∧
  native (Init (static_language 4096) 1%positive throwing_env).1 = () ∧
  language_calls (drop (length (trace throwing_env))
                    (trace (Init (static_language 4096) 1%positive
                              throwing_env).1)) = [4096].
Proof.
  split; [reflexivity|]. split; [reflexivity|]. split; [reflexivity|].
  split; [reflexivity|]. split; [reflexivity|].
  apply (Init_throws_after_name (static_language 4096) throwing_env 1%positive
           (Some 9%positive) true ∅ 4096 () 6%positive
           (store 1%positive "name" (VString "thorn") (objects throwing_env)));
    reflexivity.
Defined.
